(** * Kompas homepage scraper: link collection and article metadata

    A shallow embedding of [scraping_data_website_kompas.py]: the helper
    [get_soup], the metadata extractor [extract_article_metadata], the link
    collector [collect_article_links_from_home] and the driver loop of
    [main], followed by the properties of the specification that concern
    them.

    Modelling conventions.
    - A Python [str] is a [string]; every character is read as a code point
      below 256.
    - A parsed document is a tree of [node]s: the tags with their attribute
      dictionaries and the text strings that [get_text] visits.
    - The network ([requests.get] followed by [BeautifulSoup]) is a function
      from URLs to responses, fixed during one run.
    - [urllib.parse] is an interface ([UrlLib]); the functions of the program
      are written against the interface, and [py_urllib] transcribes
      CPython 3.11's [urlparse] and [urljoin] for the runs that are
      evaluated.  These functions give the value [urllib] returns; the
      inputs on which it raises [ValueError] are treated with the exceptions
      of the program, after the main definitions.
    - The Python [set] of links is a [gset string]; the order in which a
      [for] loop visits it is an interface ([SetOrder]), since CPython
      derives it from per-process string hashes. *)

From Stdlib Require Import Ascii String.
From stdpp Require Import base option list gmap sets strings.

Set Warnings "-register-all,-clear-no-such-hyp".

(** ** Python strings *)

(** [str.isspace] on one code point below 256: the characters [str.strip]
    removes and on which bs4 splits a [class] attribute. *)
Definition py_isspace (c : ascii) : bool :=
  let n := nat_of_ascii c in
  (((9 <=? n) && (n <=? 13)) || ((28 <=? n) && (n <=? 32))
   || (n =? 133) || (n =? 160))%nat.

Fixpoint lstrip (s : string) : string :=
  match s with
  | EmptyString => EmptyString
  | String c r => if py_isspace c then lstrip r else s
  end.

Fixpoint rstrip (s : string) : string :=
  match s with
  | EmptyString => EmptyString
  | String c r =>
      match rstrip r with
      | EmptyString => if py_isspace c then EmptyString else String c EmptyString
      | r' => String c r'
      end
  end.

(** [s.strip()] *)
Definition strip (s : string) : string := rstrip (lstrip s).

(** Truth value of a [str]: false exactly for the empty string. *)
Definition truthy (s : string) : bool :=
  match s with EmptyString => false | String _ _ => true end.

(** [needle in hay] *)
Fixpoint contains (needle hay : string) : bool :=
  match hay with
  | EmptyString => String.prefix needle EmptyString
  | String _ r => String.prefix needle hay || contains needle r
  end.

(** [l.split('#')[0]]: everything before the first ['#']. *)
Fixpoint split_hash_0 (l : string) : string :=
  match l with
  | EmptyString => EmptyString
  | String c r => if Ascii.eqb c "#" then EmptyString else String c (split_hash_0 r)
  end.

(** Maximal runs of non-space characters ([re.findall(r"\S+", s)]). *)
Fixpoint words_aux (s : string) : string * list string :=
  match s with
  | EmptyString => (EmptyString, [])
  | String c r =>
      let '(w, ws) := words_aux r in
      if py_isspace c
      then (EmptyString, if truthy w then w :: ws else ws)
      else (String c w, ws)
  end.

Definition words (s : string) : list string :=
  let '(w, ws) := words_aux s in if truthy w then w :: ws else ws.

(** ** Parsed documents (bs4) *)

Inductive node :=
| NavigableString (s : string)
| Tag (name : string) (attrs : list (string * string)) (contents : list node).

(** The [BeautifulSoup] object is the root tag of the tree. *)
Definition BeautifulSoup (contents : list node) : node :=
  Tag "[document]" [] contents.

(** [tag.descendants]: the nodes below a tag, in document order. *)
Fixpoint descendants (n : node) : list node :=
  match n with
  | NavigableString _ => []
  | Tag _ _ cs =>
      (fix go (l : list node) : list node :=
         match l with
         | [] => []
         | c :: r => c :: descendants c ++ go r
         end) cs
  end.

Fixpoint assoc (k : string) (d : list (string * string)) : option string :=
  match d with
  | [] => None
  | (k', v) :: r => if String.eqb k k' then Some v else assoc k r
  end.

(** [tag.get(k)] *)
Definition get (t : node) (k : string) : option string :=
  match t with
  | NavigableString _ => None
  | Tag _ a _ => assoc k a
  end.

(** The keyword filters the program passes to [find] and [find_all]:
    [k=v] (or [attrs={k: v}]), [k=True] and [class_=v]. *)
Inductive attr_filter :=
| AttrIs (k v : string)
| AttrTrue (k : string)
| ClassIs (v : string).

Definition matches_filter (a : list (string * string)) (f : attr_filter) : bool :=
  match f with
  | AttrIs k v => match assoc k a with Some v' => String.eqb v' v | None => false end
  | AttrTrue k => match assoc k a with Some _ => true | None => false end
  | ClassIs v =>
      match assoc "class" a with
      | Some c => existsb (String.eqb v) (words c)
      | None => false
      end
  end.

Definition matches (name : option string) (fs : list attr_filter) (n : node) : bool :=
  match n with
  | NavigableString _ => false
  | Tag nm a _ =>
      match name with Some x => String.eqb nm x | None => true end
      && forallb (matches_filter a) fs
  end.

(** [tag.find_all(name, **filters)] and [tag.find(name, **filters)] *)
Definition find_all (t : node) (name : option string) (fs : list attr_filter)
  : list node :=
  filter (fun n => matches name fs n = true) (descendants t).

Definition find (t : node) (name : option string) (fs : list attr_filter)
  : option node :=
  head (find_all t name fs).

(** The text a node contributes to [get_text(strip=True)]. *)
Definition stripped_string (n : node) : option string :=
  match n with
  | NavigableString s => if truthy (strip s) then Some (strip s) else None
  | Tag _ _ _ => None
  end.

(** [tag.get_text(strip=True)]: the stripped, non-empty strings below the
    tag, joined without a separator. *)
Definition get_text (t : node) : string :=
  String.concat "" (omap stripped_string (descendants t)).

(** The value of [x.get(k)] when the test [x and x.get(k)] succeeds. *)
Definition truthy_attr (x : option node) (k : string) : option string :=
  match x with
  | Some t => match get t k with
              | Some v => if truthy v then Some v else None
              | None => None
              end
  | None => None
  end.

(** ** Collaborators: urllib.parse, the set iteration order, the network *)

(** The six components of [urllib.parse.ParseResult]. *)
Record ParseResult := {
  scheme : string;
  netloc : string;
  path : string;
  params : string;
  query : string;
  fragment : string
}.

Class UrlLib := {
  urlparse : string -> ParseResult;
  urljoin : string -> string -> string
}.

(** The order in which iterating a [set] of strings yields its elements:
    each element once, in an order the language leaves open. *)
Class SetOrder := {
  set_iter : gset string -> list string;
  set_iter_perm : forall X : gset string, set_iter X ≡ₚ elements X
}.

(** What [requests.get] followed by [raise_for_status] and the parser
    produce for a URL: a document, or a [RequestException].  A page the
    parser rejects is taken up with [page] and [get_soup_exc] below. *)
Inductive response :=
| Response (doc : node)
| RequestException.

(** ** Records and constants of the program *)

Record ArticleRecord := {
  title : string;
  link : string;
  publication_time : string;
  author : string;
  image_url : string;
  summary : string
}.

Definition BASE_URL : string := "https://www.kompas.com/".

Definition MAX_ARTICLES : nat := 50.

(** [list(dict.fromkeys(l))]: keys in insertion order; inserting a key that
    is already present leaves its position. *)
Definition dict_fromkeys (l : list string) : list string :=
  foldl (fun d k => if bool_decide (k ∈ d) then d else d ++ [k]) [] l.

Section Program.

Context `{U : UrlLib} `{O : SetOrder}.
Variable requests_get : string -> response.

Definition get_soup (url : string) : option node :=
  match requests_get url with
  | Response doc => Some doc
  | RequestException => None
  end.

(** The body of [extract_article_metadata] once the page is parsed. *)
Definition extract_from_soup (article_url : string) (soup : node) : ArticleRecord :=
  (* title *)
  let og_title := find soup (Some "meta") [AttrIs "property" "og:title"] in
  let title0 := strip <$> truthy_attr og_title "content" in
  let title1 :=
    match title0 with
    | Some t => if truthy t then Some t else None
    | None => None
    end in
  let title :=
    match title1 with
    | Some t => t
    | None =>
        match find soup (Some "title") [] with
        | Some title_tag => get_text title_tag
        | None => "Tidak ada judul"
        end
    end in
  (* summary *)
  let meta_desc := find soup (Some "meta") [AttrIs "name" "description"] in
  let og_desc := find soup (Some "meta") [AttrIs "property" "og:description"] in
  let summary :=
    match truthy_attr meta_desc "content" with
    | Some c => strip c
    | None =>
        match truthy_attr og_desc "content" with
        | Some c => strip c
        | None =>
            match find soup (Some "p") [] with
            | Some p => get_text p
            | None => "Tidak ada ringkasan"
            end
        end
    end in
  (* author *)
  let meta_author := find soup (Some "meta") [AttrIs "name" "author"] in
  let art_author := find soup (Some "meta") [AttrIs "property" "article:author"] in
  let author :=
    match truthy_attr meta_author "content" with
    | Some c => strip c
    | None =>
        match truthy_attr art_author "content" with
        | Some c => strip c
        | None =>
            let a_tag :=
              match find soup None [ClassIs "read__author"] with
              | Some t => Some t
              | None => find soup None [ClassIs "author"]
              end in
            match a_tag with
            | Some t => get_text t
            | None => "Tidak diketahui"
            end
        end
    end in
  (* publication time *)
  let meta_time := find soup (Some "meta") [AttrIs "property" "article:published_time"] in
  let publication_time :=
    match truthy_attr meta_time "content" with
    | Some c => strip c
    | None =>
        let time_tag := find soup (Some "time") [] in
        match truthy_attr time_tag "datetime" with
        | Some d => strip d
        | None =>
            match time_tag with
            | Some t => get_text t
            | None => "Tidak ada waktu"
            end
        end
    end in
  (* image *)
  let og_image := find soup (Some "meta") [AttrIs "property" "og:image"] in
  let image_url :=
    match truthy_attr og_image "content" with
    | Some c => strip c
    | None =>
        let img_tag := find soup (Some "img") [] in
        match truthy_attr img_tag "src" with
        | Some src => urljoin article_url src
        | None => "Tidak ada gambar"
        end
    end in
  {| title := title;
     link := article_url;
     publication_time := publication_time;
     author := author;
     image_url := image_url;
     summary := summary |}.

(** [None] is Python's [None]. *)
Definition extract_article_metadata (article_url : string) : option ArticleRecord :=
  match get_soup article_url with
  | None => None
  | Some soup => Some (extract_from_soup article_url soup)
  end.

(** The test ['kompas.com' in urlparse(u).netloc]. *)
Definition in_kompas_netloc (u : string) : bool :=
  contains "kompas.com" (netloc (urlparse u)).

(** First loop of the collector: what one [<article>] adds to [links]. *)
Definition article_href (art : node) : option string :=
  match find art (Some "a") [AttrTrue "href"] with
  | Some a => Some (urljoin BASE_URL (default "" (get a "href")))
  | None => None
  end.

(** Second loop of the collector: what one [<a href>] adds to [links]. *)
Definition anchor_href (a : node) : option string :=
  let href := default "" (get a "href") in
  if negb (truthy href) then None
  else
    let parsed := urlparse href in
    let '(href, parsed) :=
      if negb (truthy (netloc parsed))
      then let href := urljoin BASE_URL href in (href, urlparse href)
      else (href, parsed) in
    if contains "kompas.com" (netloc parsed) then
      if contains "/read/" (path parsed) || contains "/travel/" (path parsed)
         || contains "/sains/" (path parsed)
         || contains "/internasional/" (path parsed)
         || contains "/tekno/" (path parsed) || contains "/health/" (path parsed)
         || contains "/edu/" (path parsed)
      then Some href
      else
        let text := get_text a in
        if (30 <? String.length text)%nat then Some href else None
    else None.

(** [links.add(h)] when the loop body reaches it. *)
Definition add_link (links : gset string) (h : option string) : gset string :=
  match h with
  | Some href => links ∪ {[ href ]}
  | None => links
  end.

Definition collect_links_from_soup (soup : node) : list string :=
  let links : gset string := ∅ in
  let links :=
    foldl (fun links art => add_link links (article_href art))
          links (find_all soup (Some "article") []) in
  let links :=
    foldl (fun links a => add_link links (anchor_href a))
          links (find_all soup (Some "a") [AttrTrue "href"]) in
  let cleaned := map split_hash_0 (set_iter links) in
  let unique_links := dict_fromkeys cleaned in
  unique_links.

Definition collect_article_links_from_home : list string :=
  match get_soup BASE_URL with
  | None => []
  | Some soup => collect_links_from_soup soup
  end.

(** State of the [for] loop of [main]: the counter, the records collected
    and the links announced by ["Memproses: ..."], each followed by a fetch. *)
Record loop_state := {
  count : nat;
  collected_data : list ArticleRecord;
  processed : list string
}.

Fixpoint main_loop (article_links : list string) (st : loop_state) : loop_state :=
  match article_links with
  | [] => st
  | link :: rest =>
      if (MAX_ARTICLES <=? count st)%nat then st (* break *)
      else if negb (in_kompas_netloc link) then main_loop rest st (* continue *)
      else
        match extract_article_metadata link with
        | Some meta =>
            main_loop rest
              {| count := S (count st);
                 collected_data := collected_data st ++ [meta];
                 processed := processed st ++ [link] |}
        | None =>
            main_loop rest
              {| count := count st;
                 collected_data := collected_data st;
                 processed := processed st ++ [link] |}
        end
  end.

(** [main] up to the export: the final loop state. *)
Definition main : loop_state :=
  let collected_data := [] in
  let article_links := collect_article_links_from_home in
  let count := 0 in
  main_loop article_links
    {| count := count; collected_data := collected_data; processed := [] |}.

(** *** Notions the statements refer to *)

(** The arguments of the calls [links.add(...)] in the order the two loops
    make them: the order in which the links are first seen. *)
Definition added_hrefs (soup : node) : list string :=
  omap article_href (find_all soup (Some "article") [])
  ++ omap anchor_href (find_all soup (Some "a") [AttrTrue "href"]).

(** The sequence the specification describes: fragments stripped, each URL
    once, at the position of its first occurrence. *)
Definition first_seen_links (soup : node) : list string :=
  dict_fromkeys (map split_hash_0 (added_hrefs soup)).

(** The candidates of the driver loop whose extraction yields a record. *)
Definition extracted (article_links : list string) : list ArticleRecord :=
  omap extract_article_metadata (List.filter in_kompas_netloc article_links).

End Program.











(** ** urllib.parse, transcribed from CPython 3.11 *)

Module Urllib.

(** [s.partition(c)]: the parts before and after the first [c]. *)
Fixpoint partition (c : ascii) (s : string) : option (string * string) :=
  match s with
  | EmptyString => None
  | String x r =>
      if Ascii.eqb x c then Some (EmptyString, r)
      else match partition c r with
           | Some (a, b) => Some (String x a, b)
           | None => None
           end
  end.

(** [s.rpartition(c)]: the parts before and after the last [c]. *)
Fixpoint rpartition (c : ascii) (s : string) : option (string * string) :=
  match s with
  | EmptyString => None
  | String x r =>
      match rpartition c r with
      | Some (a, b) => Some (String x a, b)
      | None => if Ascii.eqb x c then Some (EmptyString, r) else None
      end
  end.

(** [s.split(c)] *)
Fixpoint split (c : ascii) (s : string) : list string :=
  match s with
  | EmptyString => [EmptyString]
  | String x r =>
      if Ascii.eqb x c then EmptyString :: split c r
      else match split c r with
           | w :: ws => String x w :: ws
           | [] => [String x EmptyString]
           end
  end.

Definition lower_char (c : ascii) : ascii :=
  let n := nat_of_ascii c in
  if ((65 <=? n) && (n <=? 90))%nat then ascii_of_nat (n + 32) else c.

Fixpoint lower (s : string) : string :=
  match s with
  | EmptyString => EmptyString
  | String c r => String (lower_char c) (lower r)
  end.

Definition is_ascii_alpha (c : ascii) : bool :=
  let n := nat_of_ascii c in
  (((65 <=? n) && (n <=? 90)) || ((97 <=? n) && (n <=? 122)))%nat.

Definition is_scheme_char (c : ascii) : bool :=
  let n := nat_of_ascii c in
  is_ascii_alpha c || ((48 <=? n) && (n <=? 57))%nat
  || Ascii.eqb c "+" || Ascii.eqb c "-" || Ascii.eqb c ".".

Fixpoint forall_chars (p : ascii -> bool) (s : string) : bool :=
  match s with
  | EmptyString => true
  | String c r => p c && forall_chars p r
  end.

(** [url.lstrip(_WHATWG_C0_CONTROL_OR_SPACE)] *)
Fixpoint lstrip_c0 (s : string) : string :=
  match s with
  | EmptyString => EmptyString
  | String c r => if (nat_of_ascii c <=? 32)%nat then lstrip_c0 r else s
  end.

Fixpoint rstrip_c0 (s : string) : string :=
  match s with
  | EmptyString => EmptyString
  | String c r =>
      match rstrip_c0 r with
      | EmptyString =>
          if (nat_of_ascii c <=? 32)%nat then EmptyString else String c EmptyString
      | r' => String c r'
      end
  end.

(** Removal of the characters of [_UNSAFE_URL_BYTES_TO_REMOVE]. *)
Fixpoint remove_unsafe (s : string) : string :=
  match s with
  | EmptyString => EmptyString
  | String c r =>
      let n := nat_of_ascii c in
      if ((n =? 9) || (n =? 10) || (n =? 13))%nat then remove_unsafe r
      else String c (remove_unsafe r)
  end.

Definition in_list (s : string) (l : list string) : bool :=
  existsb (String.eqb s) l.

Definition uses_relative : list string :=
  [""; "ftp"; "http"; "gopher"; "nntp"; "imap"; "wais"; "file"; "https";
   "shttp"; "mms"; "prospero"; "rtsp"; "rtspu"; "sftp"; "svn"; "svn+ssh";
   "ws"; "wss"].

Definition uses_netloc : list string :=
  [""; "ftp"; "http"; "gopher"; "nntp"; "telnet"; "imap"; "wais"; "file";
   "mms"; "https"; "shttp"; "snews"; "prospero"; "rtsp"; "rtspu"; "rsync";
   "svn"; "svn+ssh"; "sftp"; "nfs"; "git"; "git+ssh"; "ws"; "wss"].

Definition uses_params : list string :=
  [""; "ftp"; "hdl"; "prospero"; "http"; "imap"; "https"; "shttp"; "rtsp";
   "rtspu"; "sip"; "sips"; "mms"; "sftp"; "tel"].

(** [_splitnetloc(url, 2)] applied to [url] without its two leading
    slashes: the domain part ends at the first of ['/'], ['?'], ['#']. *)
Fixpoint splitnetloc (s : string) : string * string :=
  match s with
  | EmptyString => (EmptyString, EmptyString)
  | String c r =>
      if Ascii.eqb c "/" || Ascii.eqb c "?" || Ascii.eqb c "#"
      then (EmptyString, s)
      else let '(d, rest) := splitnetloc r in (String c d, rest)
  end.

Definition drop2 (s : string) : string :=
  match s with
  | String _ (String _ r) => r
  | _ => EmptyString
  end.

Definition head_char (s : string) : option ascii :=
  match s with
  | EmptyString => None
  | String c _ => Some c
  end.

(** [urlsplit(url, scheme)] with the parameters still in the path; the
    [params] field is filled by [urlparse]. *)
Definition urlsplit (url scheme0 : string) : ParseResult :=
  let url := lstrip_c0 url in
  let scheme0 := rstrip_c0 (lstrip_c0 scheme0) in
  let url := remove_unsafe url in
  let scheme0 := remove_unsafe scheme0 in
  let '(scheme1, url) :=
    match partition ":" url with
    | Some (pre, post) =>
        if truthy pre
           && match head_char pre with Some c => is_ascii_alpha c | None => false end
           && forall_chars is_scheme_char pre
        then (lower pre, post)
        else (scheme0, url)
    | None => (scheme0, url)
    end in
  let '(netloc1, url) :=
    if String.prefix "//" url then splitnetloc (drop2 url)
    else (EmptyString, url) in
  let '(url, fragment1) :=
    match partition "#" url with
    | Some (a, b) => (a, b)
    | None => (url, EmptyString)
    end in
  let '(url, query1) :=
    match partition "?" url with
    | Some (a, b) => (a, b)
    | None => (url, EmptyString)
    end in
  {| scheme := scheme1; netloc := netloc1; path := url; params := EmptyString;
     query := query1; fragment := fragment1 |}.

(** [_splitparams(url)], called when [';' in url]. *)
Definition splitparams (url : string) : string * string :=
  match rpartition "/" url with
  | Some (dir, last) =>
      match partition ";" last with
      | Some (a, b) => (dir +:+ "/" +:+ a, b)
      | None => (url, EmptyString)
      end
  | None =>
      match partition ";" url with
      | Some (a, b) => (a, b)
      | None => (url, EmptyString)
      end
  end.

Definition urlparse (url scheme0 : string) : ParseResult :=
  let r := urlsplit url scheme0 in
  if in_list (scheme r) uses_params && contains ";" (path r)
  then let '(url, params1) := splitparams (path r) in
       {| scheme := scheme r; netloc := netloc r; path := url;
          params := params1; query := query r; fragment := fragment r |}
  else r.

(** [urlunparse((scheme, netloc, url, params, query, fragment))] *)
Definition urlunparse (r : ParseResult) : string :=
  let url := path r in
  let url := if truthy (params r) then (url +:+ ";" +:+ params r) else url in
  let url :=
    if truthy (netloc r)
       || (truthy (scheme r) && in_list (scheme r) uses_netloc
           && negb (String.prefix "//" url))
    then
      let url :=
        if truthy url && negb (String.prefix "/" url)
        then ("/" +:+ url) else url in
      ("//" +:+ netloc r +:+ url)
    else url in
  let url := if truthy (scheme r) then (scheme r +:+ ":" +:+ url) else url in
  let url := if truthy (query r) then (url +:+ "?" +:+ query r) else url in
  let url := if truthy (fragment r) then (url +:+ "#" +:+ fragment r) else url in
  url.

(** [segments[1:-1] = filter(None, segments[1:-1])] *)
Definition filter_inner (segments : list string) : list string :=
  match segments with
  | [] => []
  | [x] => [x]
  | x :: rest =>
      x :: List.filter truthy (removelast rest) ++ [List.last rest EmptyString]
  end.

Definition resolve_step (resolved : list string) (seg : string) : list string :=
  if String.eqb seg ".." then removelast resolved
  else if String.eqb seg "." then resolved
  else resolved ++ [seg].

Definition urljoin (base url : string) : string :=
  if negb (truthy base) then url
  else if negb (truthy url) then base
  else
    let b := urlparse base EmptyString in
    let u := urlparse url (scheme b) in
    if negb (String.eqb (scheme u) (scheme b))
       || negb (in_list (scheme u) uses_relative)
    then url
    else if in_list (scheme u) uses_netloc && truthy (netloc u)
    then urlunparse u
    else
      let netloc1 := if in_list (scheme u) uses_netloc then netloc b else netloc u in
      if negb (truthy (path u)) && negb (truthy (params u))
      then
        urlunparse
          {| scheme := scheme u; netloc := netloc1; path := path b;
             params := params b;
             query := if negb (truthy (query u)) then query b else query u;
             fragment := fragment u |}
      else
        let base_parts := split "/" (path b) in
        let base_parts :=
          if truthy (List.last base_parts EmptyString)
          then removelast base_parts else base_parts in
        let segments :=
          if String.prefix "/" (path u) then split "/" (path u)
          else filter_inner (base_parts ++ split "/" (path u)) in
        let resolved_path := foldl resolve_step [] segments in
        let last_seg := List.last segments EmptyString in
        let resolved_path :=
          if String.eqb last_seg "." || String.eqb last_seg ".."
          then resolved_path ++ [EmptyString] else resolved_path in
        let joined := String.concat "/" resolved_path in
        urlunparse
          {| scheme := scheme u; netloc := netloc1;
             path := if truthy joined then joined else "/";
             params := params u; query := query u; fragment := fragment u |}.

End Urllib.

#[global] Instance py_urllib : UrlLib := {
  urlparse url := Urllib.urlparse url EmptyString;
  urljoin := Urllib.urljoin
}.

(** ** One iteration order, and the documents and networks of the examples *)

(** The enumeration of stdpp's [elements]: like a hash order, it depends on
    the members only, not on the order of the insertions. *)
#[global] Instance elements_order : SetOrder := {
  set_iter := elements;
  set_iter_perm X := reflexivity (elements X)
}.

Definition a_tag (href text : string) : node :=
  Tag "a" [("href", href)] [NavigableString text].

Definition meta_tag (k v content : string) : node :=
  Tag "meta" [(k, v); ("content", content)] [].

(** A network that serves [home] at [BASE_URL] and [pages] elsewhere. *)
Definition web (home : node) (pages : string -> response) (url : string)
  : response :=
  if String.eqb url BASE_URL then Response home else pages url.

Definition unreachable (url : string) : response := RequestException.

(** A homepage with two headline links. *)
Definition home_two_links : node :=
  BeautifulSoup
    [ a_tag "/read/b" "first"; a_tag "/read/a" "second" ].

(** A homepage whose only article container links to another site. *)
Definition home_offsite_article : node :=
  BeautifulSoup
    [ Tag "article" [] [ a_tag "https://example.org/x" "elsewhere" ] ].

(** A homepage linking to hosts that merely contain ["kompas.com"]. *)
Definition home_lookalike_hosts : node :=
  BeautifulSoup
    [ a_tag "https://kompas.com.example.net/read/1" "one";
      a_tag "https://notkompas.com/read/2" "two" ].

(** A homepage with [n] distinct article links [/read/x], [/read/xx], ... *)
Definition home_many (n : nat) : node :=
  BeautifulSoup
    (map (fun i => a_tag ("/read/" +:+ String.concat "" (replicate (S i) "x"))
                         "headline")
         (seq 0 n)).

(** The absolute form of the link number [i] of [home_many]. *)
Definition link_many (i : nat) : string :=
  "https://www.kompas.com/read/" +:+ String.concat "" (replicate (S i) "x").


(** The page of the specification's example. *)
Definition page_two_titles : node :=
  BeautifulSoup
    [ Tag "head" []
        [ meta_tag "property" "og:title" "Title A";
          Tag "title" [] [NavigableString "Title B"] ] ].


Definition serve (doc : node) (url : string) : response := Response doc.

(** Every page is served except the one at [url0]. *)
Definition serve_except (url0 : string) (doc : node) (url : string) : response :=
  if String.eqb url url0 then RequestException else Response doc.

(** ** The export stage of [main], and further notions for the statements *)



Section ExportStage.

Context `{U : UrlLib} `{O : SetOrder}.
Variable requests_get : string -> response.


(** The link the second loop of the collector works with for an [href]: the
    [href] itself when it names a host, else its resolution against
    [BASE_URL]. *)
Definition resolved_href (href : string) : string :=
  if truthy (netloc (urlparse href)) then href else urljoin BASE_URL href.

End ExportStage.

(** The path contains one of the section markers of the second loop. *)
Definition has_marker (p : string) : bool :=
  contains "/read/" p || contains "/travel/" p || contains "/sains/" p
  || contains "/internasional/" p || contains "/tekno/" p
  || contains "/health/" p || contains "/edu/" p.

(** Deduplication that keeps the first occurrence of every element. *)
Fixpoint keep_first (l : list string) : list string :=
  match l with
  | [] => []
  | x :: r => x :: filter (fun y => y <> x) (keep_first r)
  end.

(** An article container whose link has an empty [href]. *)
Definition home_empty_href_article : node :=
  BeautifulSoup
    [ Tag "article" [] [ Tag "a" [("href", "")] [NavigableString "headline"] ] ].

(** A homepage with one link whose text has [n] characters and whose path
    has no section marker. *)
Definition home_text_link (n : nat) : node :=
  BeautifulSoup
    [ a_tag "/about" (String.concat "" (replicate n "x")) ].

(** *** Components of [Urllib.urlsplit], named for the statements about it *)

(** The test [urlsplit] makes on the text before the first [':']. *)
Definition is_scheme (pre : string) : bool :=
  truthy pre
  && match Urllib.head_char pre with
     | Some c => Urllib.is_ascii_alpha c
     | None => false
     end
  && Urllib.forall_chars Urllib.is_scheme_char pre.

(** What is left of a URL once [urlsplit] has taken its scheme. *)
Definition after_scheme (url : string) : string :=
  match Urllib.partition ":" url with
  | Some (pre, post) => if is_scheme pre then post else url
  | None => url
  end.

(** The host part [urlsplit] reads at the start of what is left. *)
Definition netloc_of (rest : string) : string :=
  if String.prefix "//" rest then fst (Urllib.splitnetloc (Urllib.drop2 rest))
  else "".

(** An anchor with a [mailto:] address and a long text. *)
Definition mailto_anchor : node :=
  a_tag "mailto:redaksi@kompas.com"
        "Kirim surat kepada redaksi melalui alamat ini".

(** ** Exceptions: the program with the runs that do not return

    The definitions above give the values the functions return.  The ones
    below add what they raise: [get_soup] catches a [RequestException]
    only, so a page that is fetched but rejected by the parser raises
    through it, and a [ValueError] of [urllib.parse] is caught nowhere. *)

Inductive exception :=
| ParserRejectedMarkup
| ValueError.

Inductive outcome (A : Type) :=
| Returns (a : A)
| Raises (e : exception).

Arguments Returns {A} a.
Arguments Raises {A} e.

(** What the network and the parser make of a URL: a parsed document; a
    [RequestException] of [requests.get] or [raise_for_status]; or a page
    that is fetched and that [BeautifulSoup] rejects with
    [ParserRejectedMarkup], which is no [RequestException]. *)
Inductive page :=
| Parsed (doc : node)
| RequestFailed
| ParserRejected.

(** The inputs on which [urlparse] and [urljoin] raise [ValueError]. *)
Class UrlRaises := {
  urlparse_raises : string -> bool;
  urljoin_raises : string -> string -> bool
}.

(** The same network for the definitions that return values only. *)
Definition as_response (p : page) : response :=
  match p with
  | Parsed doc => Response doc
  | RequestFailed | ParserRejected => RequestException
  end.

Section Raising.

Context `{U : UrlLib} `{R : UrlRaises} `{O : SetOrder}.
Variable network : string -> page.

(** [get_soup]: the [except] clause turns a [RequestException] into [None];
    the parser's exception is not one and leaves the function. *)
Definition get_soup_exc (url : string) : outcome (option node) :=
  match network url with
  | Parsed doc => Returns (Some doc)
  | RequestFailed => Returns None
  | ParserRejected => Raises ParserRejectedMarkup
  end.

(** The one call of the extractor that can raise: [urljoin(article_url,
    img_tag['src'])], reached when og:image gives nothing and the first
    image has a non-empty [src]. *)
Definition image_raises (article_url : string) (soup : node) : bool :=
  match truthy_attr (find soup (Some "meta") [AttrIs "property" "og:image"])
                    "content" with
  | Some _ => false
  | None =>
      match truthy_attr (find soup (Some "img") []) "src" with
      | Some src => urljoin_raises article_url src
      | None => false
      end
  end.

Definition extract_article_metadata_exc (article_url : string)
  : outcome (option ArticleRecord) :=
  match get_soup_exc article_url with
  | Raises e => Raises e
  | Returns None => Returns None
  | Returns (Some soup) =>
      if image_raises article_url soup then Raises ValueError
      else Returns (Some (extract_from_soup article_url soup))
  end.

(** First loop of the collector: [urljoin(BASE_URL, a['href'])] raises. *)
Definition article_raises (art : node) : bool :=
  match find art (Some "a") [AttrTrue "href"] with
  | Some a => urljoin_raises BASE_URL (default "" (get a "href"))
  | None => false
  end.

(** Second loop of the collector: [urlparse(href)] raises, or, for an
    [href] without host, [urljoin(BASE_URL, href)] or the [urlparse] of its
    result does. *)
Definition anchor_raises (a : node) : bool :=
  let href := default "" (get a "href") in
  truthy href
  && (urlparse_raises href
      || (negb (truthy (netloc (urlparse href)))
          && (urljoin_raises BASE_URL href
              || urlparse_raises (urljoin BASE_URL href)))).

Definition collect_article_links_from_home_exc : outcome (list string) :=
  match get_soup_exc BASE_URL with
  | Raises e => Raises e
  | Returns None => Returns []
  | Returns (Some soup) =>
      if existsb article_raises (find_all soup (Some "article") [])
         || existsb anchor_raises (find_all soup (Some "a") [AttrTrue "href"])
      then Raises ValueError
      else Returns (collect_links_from_soup soup)
  end.

End Raising.

(** *** The raises of CPython's [urlsplit] *)

(** ['[' in netloc] without [']' in netloc], or the reverse: "Invalid IPv6
    URL". *)
Definition unmatched_bracket (n : string) : bool :=
  xorb (contains "[" n) (contains "]" n).

(** [urlsplit] raises on an unmatched bracket in the host part, and on a
    bracketed host that [_check_bracketed_netloc] refuses; that check, which
    parses IP addresses, is the parameter [refused].  For code points below
    256 [_checknetloc] never raises. *)
Definition urlsplit_raises (refused : string -> bool) (url : string) : bool :=
  let n := netloc (Urllib.urlsplit url "") in
  unmatched_bracket n || (contains "[" n && contains "]" n && refused n).

Definition py_url_raises (refused : string -> bool) : UrlRaises := {|
  urlparse_raises := urlsplit_raises refused;
  urljoin_raises base url :=
    truthy base && truthy url
    && (urlsplit_raises refused base || urlsplit_raises refused url)
|}.

(** A page whose only image has an address with an unmatched bracket. *)
Definition page_bad_image : node :=
  BeautifulSoup [ Tag "img" [("src", "//[x/a.png")] [] ].

(** Networks that serve one document everywhere, reject every page in the
    parser, or fail every request. *)
Definition serving (doc : node) (url : string) : page := Parsed doc.
Definition rejecting (url : string) : page := ParserRejected.
Definition failing (url : string) : page := RequestFailed.

(** * Properties *)

(** ** Strings *)

Lemma app_cons (c : ascii) (a b : string) : String c a +:+ b = String c (a +:+ b).
Proof. reflexivity. Qed.


Lemma prefix_app (n h : string) :
  String.prefix n h = true <-> exists post, h = (n +:+ post).
Proof.
  revert h. induction n as [|c n IH]; intros h.
  - split; [intros _; by exists h | by destruct h].
  - destruct h as [|d h]; simpl.
    + split; [done | intros [post Hp]; discriminate].
    + setoid_rewrite app_cons.
      destruct (Ascii.ascii_dec c d) as [->|Hne].
      * rewrite IH. split; intros [post Hp]; exists post; congruence.
      * split; [done | intros [post Hp]; congruence].
Qed.

(** [contains] is the substring test. *)
Lemma contains_spec (n h : string) :
  contains n h = true <-> exists pre post, h = pre +:+ n +:+ post.
Proof.
  induction h as [|d h IH].
  - change (contains n "") with (String.prefix n "").
    rewrite prefix_app. split.
    + intros [post Hp]. by exists "", post.
    + intros (pre & post & Hp). destruct pre; [by exists post | done].
  - change (contains n (String d h))
      with (String.prefix n (String d h) || contains n h).
    rewrite orb_true_iff, IH, prefix_app. split.
    + intros [[post Hp] | (pre & post & Hp)].
      * by exists "", post.
      * exists (String d pre), post. rewrite app_cons. congruence.
    + intros (pre & post & Hp). destruct pre as [|e pre].
      * left. by exists post.
      * right. exists pre, post. rewrite app_cons in Hp. congruence.
Qed.

Lemma truthy_true (s : string) : truthy s = true <-> s <> EmptyString.
Proof. destruct s; simpl; split; congruence. Qed.
















(** ** [dict.fromkeys] *)

Lemma dict_fromkeys_from (l d : list string) :
  NoDup d ->
  let r := foldl (fun d k => if bool_decide (k ∈ d) then d else d ++ [k]) d l in
  NoDup r /\ forall x, x ∈ r <-> x ∈ d \/ x ∈ l.
Proof.
  revert d. induction l as [|k l IH]; intros d Hd; simpl.
  - split; [done|]. intros x. rewrite elem_of_nil. tauto.
  - case_bool_decide as Hk.
    + destruct (IH d Hd) as [Hn Hin]. split; [done|].
      intros x. rewrite Hin, elem_of_cons. naive_solver.
    + destruct (IH (d ++ [k])) as [Hn Hin].
      { apply NoDup_app. split; [done|]. split; [|apply NoDup_singleton].
        intros x Hx ->%list_elem_of_singleton. done. }
      split; [done|]. intros x.
      rewrite Hin, elem_of_app, list_elem_of_singleton, elem_of_cons. tauto.
Qed.

Lemma dict_fromkeys_NoDup (l : list string) : NoDup (dict_fromkeys l).
Proof. apply (dict_fromkeys_from l []), NoDup_nil_2. Qed.

Lemma elem_of_dict_fromkeys (l : list string) (x : string) :
  x ∈ dict_fromkeys l <-> x ∈ l.
Proof.
  destruct (dict_fromkeys_from l [] (NoDup_nil_2)) as [_ H].
  unfold dict_fromkeys. rewrite H, elem_of_nil. tauto.
Qed.

(** ** The link collector *)

Section Collector.

Context `{U : UrlLib} `{O : SetOrder}.

Lemma foldl_add_link (f : node -> option string) (l : list node) (X : gset string) :
  foldl (fun links a => add_link links (f a)) X l = X ∪ list_to_set (omap f l).
Proof.
  revert X. induction l as [|a l IH]; intros X; simpl.
  - set_solver.
  - rewrite IH. unfold add_link. destruct (f a) as [h|]; simpl; set_solver.
Qed.

Lemma elem_of_set_iter (X : gset string) (x : string) : x ∈ set_iter X <-> x ∈ X.
Proof. by rewrite (set_iter_perm X), elem_of_elements. Qed.

(** The returned links are the fragment-stripped arguments of [links.add]. *)
Lemma elem_of_collect (soup : node) (x : string) :
  x ∈ collect_links_from_soup soup
  <-> exists h, h ∈ added_hrefs soup /\ x = split_hash_0 h.
Proof.
  unfold collect_links_from_soup, added_hrefs.
  rewrite elem_of_dict_fromkeys, !foldl_add_link, list_elem_of_fmap.
  setoid_rewrite elem_of_set_iter. setoid_rewrite elem_of_app.
  split; intros (h & H1 & H2).
  - exists h. split; [|done]. set_solver.
  - exists h. split; [done|]. set_solver.
Qed.

Lemma collect_NoDup (soup : node) : NoDup (collect_links_from_soup soup).
Proof. apply dict_fromkeys_NoDup. Qed.

(** X1.  Whatever the iteration order of the set, the collector returns the
    first-seen sequence up to a permutation, without repetition: every
    distinct fragment-stripped link exactly once. *)
Lemma collect_Permutation (soup : node) :
  collect_links_from_soup soup ≡ₚ first_seen_links soup
  /\ NoDup (collect_links_from_soup soup).
Proof.
  split; [|apply collect_NoDup].
  apply NoDup_Permutation; [apply collect_NoDup | apply dict_fromkeys_NoDup |].
  intros x. unfold first_seen_links.
  rewrite elem_of_collect, elem_of_dict_fromkeys, list_elem_of_fmap. naive_solver.
Qed.

(** The second loop adds a link only after the substring test on its host. *)
Lemma anchor_href_in_kompas (a : node) (h : string) :
  anchor_href a = Some h -> in_kompas_netloc h = true.
Proof.
  unfold anchor_href, in_kompas_netloc.
  destruct (negb (truthy (default "" (get a "href")))); [done|].
  destruct (negb (truthy (netloc (urlparse (default "" (get a "href"))))));
    simpl; (destruct (contains "kompas.com" _) eqn:Hk; [|done]);
    repeat (match goal with |- context [if ?b then _ else _] => destruct b end);
    congruence.
Qed.

End Collector.

(** ** The metadata extractor *)

Section Extractor.

Context `{U : UrlLib}.






Lemma extract_link (url : string) (soup : node) :
  link (extract_from_soup url soup) = url.
Proof. reflexivity. Qed.

End Extractor.





(** ** The driver loop *)

Section Driver.

Context `{U : UrlLib} `{O : SetOrder}.
Variable requests_get : string -> response.

Lemma main_loop_cons (link : string) (rest : list string) (st : loop_state) :
  main_loop requests_get (link :: rest) st
  = if (MAX_ARTICLES <=? count st)%nat then st
    else if negb (in_kompas_netloc link) then main_loop requests_get rest st
    else match extract_article_metadata requests_get link with
         | Some meta =>
             main_loop requests_get rest
               {| count := S (count st);
                  collected_data := collected_data st ++ [meta];
                  processed := processed st ++ [link] |}
         | None =>
             main_loop requests_get rest
               {| count := count st;
                  collected_data := collected_data st;
                  processed := processed st ++ [link] |}
         end.
Proof. reflexivity. Qed.

Lemma extracted_cons (link : string) (rest : list string) :
  extracted requests_get (link :: rest)
  = if in_kompas_netloc link
    then match extract_article_metadata requests_get link with
         | Some meta => meta :: extracted requests_get rest
         | None => extracted requests_get rest
         end
    else extracted requests_get rest.
Proof.
  unfold extracted. simpl. destruct (in_kompas_netloc link); [|done].
  simpl. by destruct (extract_article_metadata requests_get link).
Qed.

(** The loop appends the records of the first in-domain candidates whose
    extraction succeeds, as many as the counter still allows. *)
Lemma main_loop_collected (article_links : list string) (st : loop_state) :
  collected_data (main_loop requests_get article_links st)
  = collected_data st
    ++ take (MAX_ARTICLES - count st) (extracted requests_get article_links).
Proof.
  revert st. induction article_links as [|l links IH]; intros st.
  - change (extracted requests_get []) with (@nil ArticleRecord).
    by rewrite take_nil, app_nil_r.
  - rewrite main_loop_cons, extracted_cons.
    destruct (MAX_ARTICLES <=? count st)%nat eqn:Hmax.
    + apply Nat.leb_le in Hmax.
      replace (MAX_ARTICLES - count st) with 0 by lia.
      by rewrite take_0, app_nil_r.
    + apply Nat.leb_gt in Hmax.
      destruct (in_kompas_netloc l); cbn [negb]; [|apply IH].
      destruct (extract_article_metadata requests_get l) as [meta|];
        rewrite IH; cbn [count collected_data]; [|done].
      replace (MAX_ARTICLES - count st) with (S (MAX_ARTICLES - S (count st))) by lia.
      by rewrite firstn_cons, <- app_assoc.
Qed.

(** The counter counts the records, not the pages fetched. *)
Lemma main_loop_count (article_links : list string) (st : loop_state) :
  count st = length (collected_data st) ->
  count (main_loop requests_get article_links st)
  = length (collected_data (main_loop requests_get article_links st)).
Proof.
  revert st. induction article_links as [|l links IH]; intros st Hst; [done|].
  rewrite main_loop_cons.
  destruct (MAX_ARTICLES <=? count st)%nat; [done|].
  destruct (in_kompas_netloc l); cbn [negb]; [|by apply IH].
  destruct (extract_article_metadata requests_get l); apply IH;
    cbn [count collected_data]; [|done].
  rewrite length_app. simpl. lia.
Qed.

(** The records are the successful extractions among the processed links,
    and every processed link passed the substring test on its host. *)
Lemma main_loop_processed (article_links : list string) (st : loop_state) :
  exists new,
    processed (main_loop requests_get article_links st) = processed st ++ new
    /\ collected_data (main_loop requests_get article_links st)
       = collected_data st ++ omap (extract_article_metadata requests_get) new
    /\ Forall (fun l => in_kompas_netloc l = true) new
    /\ new `sublist_of` article_links.
Proof.
  revert st. induction article_links as [|l links IH]; intros st.
  - exists []. by rewrite !app_nil_r.
  - rewrite main_loop_cons. destruct (MAX_ARTICLES <=? count st)%nat.
    { exists []. rewrite !app_nil_r. repeat split; [done | apply sublist_nil_l]. }
    destruct (in_kompas_netloc l) eqn:Hl; cbn [negb].
    + destruct (extract_article_metadata requests_get l) as [meta|] eqn:He;
        match goal with |- context [main_loop requests_get links ?st'] =>
          destruct (IH st') as (new & Hp & Hc & Hk & Hs) end;
        cbn [count collected_data processed] in *; exists (l :: new);
        rewrite Hp, Hc; simpl; rewrite He;
        rewrite <- ?app_assoc; repeat split; try done;
        first [by constructor | by apply sublist_skip].
    + destruct (IH st) as (new & Hp & Hc & Hk & Hs).
      exists new. repeat split; try done. by apply sublist_cons.
Qed.

End Driver.

(** * The claims of the specification *)

(** C1 (the code departs from the claim).  The collector gathers the links
    in a set before it strips fragments and removes duplicates, so the order
    it returns is the iteration order of the set, not the order of first
    occurrence: on a homepage whose links are [/read/b] then [/read/a] the
    first-seen sequence is [b; a], and under CPython's urllib and the
    iteration order [elements_order] the collector returns [a; b]. *)
Theorem collect_order_is_set_iteration_order :
  first_seen_links home_two_links
  = ["https://www.kompas.com/read/b"; "https://www.kompas.com/read/a"]
  /\ collect_article_links_from_home (web home_two_links unreachable)
     = ["https://www.kompas.com/read/a"; "https://www.kompas.com/read/b"].
Proof. split; vm_compute; reflexivity. Qed.


(** C3, counterexample.  A link inside an article container is returned
    although its host, [example.org], is not in the target domain. *)
Lemma collect_returns_offsite_article_link :
  collect_article_links_from_home (web home_offsite_article unreachable)
  = ["https://example.org/x"]
  /\ netloc (urlparse "https://example.org/x") = "example.org"
  /\ in_kompas_netloc "https://example.org/x" = false.
Proof. split; [|split]; vm_compute; reflexivity. Qed.



Section Claims.

Context `{U : UrlLib} `{O : SetOrder}.
Variable requests_get : string -> response.


(** C3 (amended).  Every URL the collector returns is the fragment-stripped
    form of a link that either was taken from an article container, where no
    test on the host is made, or was accepted by the second loop after the
    test that its host contains "kompas.com"; and every link the driver goes
    on to fetch has passed that test. *)
Theorem collected_link_origin :
  (forall x,
      x ∈ collect_article_links_from_home requests_get ->
      exists soup h,
        get_soup requests_get BASE_URL = Some soup
        /\ x = split_hash_0 h
        /\ ((exists art, art ∈ find_all soup (Some "article") []
                         /\ article_href art = Some h)
            \/ (in_kompas_netloc h = true
                /\ exists a, a ∈ find_all soup (Some "a") [AttrTrue "href"]
                             /\ anchor_href a = Some h)))
  /\ Forall (fun l => in_kompas_netloc l = true) (processed (main requests_get)).
Proof.
  split.
  - intros x. unfold collect_article_links_from_home.
    destruct (get_soup requests_get BASE_URL) as [soup|] eqn:Hs;
      [|by intros ?%elem_of_nil].
    intros (h & Hh & ->)%elem_of_collect. exists soup, h.
    split; [done|]. split; [done|].
    unfold added_hrefs in Hh.
    apply elem_of_app in Hh as [(art & ? & ?)%list_elem_of_omap
                               |(a & ? & Ha)%list_elem_of_omap].
    + left. by exists art.
    + right. split; [by eapply anchor_href_in_kompas | by exists a].
  - unfold main.
    destruct (main_loop_processed requests_get
                (collect_article_links_from_home requests_get)
                {| count := 0; collected_data := []; processed := [] |})
      as (new & Hp & _ & Hk & _).
    rewrite Hp. exact Hk.
Qed.




End Claims.

Section ClaimsRaising.

Context `{U : UrlLib} `{R : UrlRaises} `{O : SetOrder}.
Variable network : string -> page.

(** When the extractor returns, it returns what [extract_article_metadata]
    gives on the same network. *)
Lemma extract_exc_returns (article_url : string) (v : option ArticleRecord) :
  extract_article_metadata_exc network article_url = Returns v ->
  v = extract_article_metadata (fun u => as_response (network u)) article_url.
Proof.
  unfold extract_article_metadata_exc, get_soup_exc, extract_article_metadata,
    get_soup.
  destruct (network article_url) as [soup| |]; simpl; [|congruence|done].
  destruct (image_raises article_url soup); [done | congruence].
Qed.

(** When the collector returns, it returns what
    [collect_article_links_from_home] gives on the same network. *)
Lemma collect_exc_returns (l : list string) :
  collect_article_links_from_home_exc network = Returns l ->
  l = collect_article_links_from_home (fun u => as_response (network u)).
Proof.
  unfold collect_article_links_from_home_exc, get_soup_exc,
    collect_article_links_from_home, get_soup.
  destruct (network BASE_URL) as [soup| |]; simpl; [|congruence|done].
  destruct (_ || _); [done | congruence].
Qed.

(** C6 (amended).  The extractor returns [None] exactly when the request for
    the page fails.  For a page that is fetched and parsed it returns a
    record, whose link is the URL it was given, unless resolving the address
    of the first image raises [ValueError], which then leaves the function;
    and a page the parser rejects raises [ParserRejectedMarkup] instead of
    giving [None]. *)
Theorem extract_none_iff_request_fails (article_url : string) :
  (extract_article_metadata_exc network article_url = Returns None
   <-> network article_url = RequestFailed)
  /\ (forall soup,
        network article_url = Parsed soup ->
        image_raises article_url soup = false ->
        exists r,
          extract_article_metadata_exc network article_url = Returns (Some r)
          /\ link r = article_url)
  /\ (forall soup,
        network article_url = Parsed soup ->
        image_raises article_url soup = true ->
        extract_article_metadata_exc network article_url = Raises ValueError)
  /\ (network article_url = ParserRejected ->
      extract_article_metadata_exc network article_url
      = Raises ParserRejectedMarkup).
Proof.
  unfold extract_article_metadata_exc, get_soup_exc.
  destruct (network article_url) as [soup| |] eqn:Hn.
  - split; [by destruct (image_raises article_url soup)|].
    split; [|split; [|done]]; intros ? [= <-] ->; [|done].
    eexists. split; [done | apply extract_link].
  - by repeat split.
  - by repeat split.
Qed.

(** C8 (amended).  When the request for the root page fails, the collector
    returns the empty sequence and does not raise; when the root page is
    fetched but rejected by the parser, the collector raises
    [ParserRejectedMarkup] to its caller. *)
Theorem collect_empty_when_root_request_fails :
  (network BASE_URL = RequestFailed ->
   collect_article_links_from_home_exc network = Returns [])
  /\ (network BASE_URL = ParserRejected ->
      collect_article_links_from_home_exc network = Raises ParserRejectedMarkup).
Proof.
  unfold collect_article_links_from_home_exc, get_soup_exc.
  split; by intros ->.
Qed.

End ClaimsRaising.

(** C6, counterexample.  A page that is fetched and parsed, and whose first
    image has the address [//[x/a.png], makes the extractor raise
    [ValueError] instead of returning a record; and a page the parser
    rejects makes it raise instead of returning [None]. *)
Lemma extract_raises_on_parsed_and_on_rejected_page :
  serving page_bad_image "https://www.kompas.com/read/1" = Parsed page_bad_image
  /\ extract_article_metadata_exc (R := py_url_raises (fun _ => false))
       (serving page_bad_image) "https://www.kompas.com/read/1"
     = Raises ValueError
  /\ extract_article_metadata_exc (R := py_url_raises (fun _ => false))
       rejecting "https://www.kompas.com/read/1"
     = Raises ParserRejectedMarkup.
Proof. split; [|split]; vm_compute; reflexivity. Qed.

(** C8, counterexample.  A root page that is fetched but cannot be parsed
    makes the collector raise instead of returning the empty sequence. *)
Lemma collect_raises_on_rejected_root_page :
  collect_article_links_from_home_exc (R := py_url_raises (fun _ => false))
    rejecting
  = Raises ParserRejectedMarkup
  /\ collect_article_links_from_home_exc (R := py_url_raises (fun _ => false))
       rejecting
     <> Returns [].
Proof. split; [vm_compute; reflexivity | discriminate]. Qed.

(** C9.  The test on the host is a substring test: a link passes exactly
    when its host contains "kompas.com" somewhere.  Under CPython's urllib
    links to the hosts kompas.com.example.net and notkompas.com are accepted
    by the second loop of the collector, returned by it, and fetched by the
    driver. *)
Theorem kompas_test_is_substring_test :
  (forall (U : UrlLib) (l : string),
      in_kompas_netloc l = true
      <-> exists pre post, netloc (urlparse l) = pre +:+ "kompas.com" +:+ post)
  /\ netloc (urlparse "https://kompas.com.example.net/read/1")
     = "kompas.com.example.net"
  /\ netloc (urlparse "https://notkompas.com/read/2") = "notkompas.com"
  /\ anchor_href (a_tag "https://kompas.com.example.net/read/1" "one")
     = Some "https://kompas.com.example.net/read/1"
  /\ anchor_href (a_tag "https://notkompas.com/read/2" "two")
     = Some "https://notkompas.com/read/2"
  /\ collect_article_links_from_home (web home_lookalike_hosts unreachable)
     = ["https://kompas.com.example.net/read/1"; "https://notkompas.com/read/2"]
  /\ processed (main (web home_lookalike_hosts unreachable))
     = ["https://kompas.com.example.net/read/1"; "https://notkompas.com/read/2"].
Proof.
  split; [intros U' l; apply contains_spec|].
  repeat (split; [vm_compute; reflexivity|]). vm_compute; reflexivity.
Qed.

(** C10.  The counter of the driver is the number of records: a record is
    collected for exactly the processed links whose extraction succeeds, and
    at most [MAX_ARTICLES] records are collected.  A page whose fetch fails
    is processed without being counted: on a homepage with 51 links of which
    one cannot be fetched, the driver processes 51 pages and collects 50
    records. *)
Theorem failed_fetch_does_not_use_the_budget :
  (forall (U : UrlLib) (O : SetOrder) (requests_get : string -> response),
      let st := main requests_get in
      count st = length (collected_data st)
      /\ collected_data st
         = omap (extract_article_metadata requests_get) (processed st)
      /\ length (collected_data st) <= MAX_ARTICLES)
  /\ (let st := main (web (home_many 51)
                          (serve_except (link_many 50) page_two_titles)) in
      length (processed st) = S MAX_ARTICLES
      /\ length (collected_data st) = MAX_ARTICLES).
Proof.
  split; [|split; vm_compute; reflexivity].
  intros U' O' rg. cbv zeta. unfold main.
  set (links := collect_article_links_from_home rg).
  set (st0 := {| count := 0; collected_data := []; processed := [] |}).
  split; [by apply main_loop_count|]. split.
  - destruct (main_loop_processed rg links st0) as (new & Hp & Hc & _).
    by rewrite Hp, Hc.
  - rewrite main_loop_collected, length_app, length_take.
    subst st0. cbn [count collected_data length]. lia.
Qed.

(** ** Instances of the statements above *)


(** C3, on the homepage whose article container links to example.org. *)
Lemma collected_link_origin_witness :
  exists soup h,
    get_soup (web home_offsite_article unreachable) BASE_URL = Some soup
    /\ "https://example.org/x" = split_hash_0 h.
Proof.
  destruct (proj1 (collected_link_origin (web home_offsite_article unreachable))
              "https://example.org/x")
    as (soup & h & Hs & Hx & _).
  - vm_compute. apply list_elem_of_here.
  - by exists soup, h.
Defined.


(** C6, on the page of the specification's example, served everywhere. *)
Lemma extract_none_iff_request_fails_witness :
  exists r,
    extract_article_metadata_exc (R := py_url_raises (fun _ => false))
      (serving page_two_titles) "https://www.kompas.com/read/1"
    = Returns (Some r)
    /\ link r = "https://www.kompas.com/read/1".
Proof.
  apply (proj1 (proj2 (extract_none_iff_request_fails
                         (R := py_url_raises (fun _ => false))
                         (serving page_two_titles)
                         "https://www.kompas.com/read/1")) page_two_titles);
    reflexivity.
Defined.

(** C8, on the network where every request fails. *)
Lemma collect_empty_when_root_request_fails_witness :
  collect_article_links_from_home_exc (R := py_url_raises (fun _ => false))
    failing
  = Returns [].
Proof.
  apply (proj1 (collect_empty_when_root_request_fails
                  (R := py_url_raises (fun _ => false)) failing)).
  reflexivity.
Defined.

(** * Further properties of the program *)

(** ** The driver loop, continued *)

Lemma omap_cons_Some {A B} (f : A -> option B) (x : A) (l : list A) (y : B) :
  f x = Some y -> omap f (x :: l) = y :: omap f l.
Proof. intros H. simpl. by rewrite H. Qed.

Lemma omap_cons_None {A B} (f : A -> option B) (x : A) (l : list A) :
  f x = None -> omap f (x :: l) = omap f l.
Proof. intros H. simpl. by rewrite H. Qed.

Section DriverRun.

Context `{U : UrlLib} `{O : SetOrder}.
Variable requests_get : string -> response.

(** One run of the loop: the links it processes are an initial segment of
    the in-domain candidates; it stops before the end only at the [break];
    and every link is processed while the counter is below the maximum. *)
Lemma main_loop_run (article_links : list string) (st : loop_state) :
  exists new,
    processed (main_loop requests_get article_links st) = processed st ++ new
    /\ new `prefix_of` List.filter in_kompas_netloc article_links
    /\ count (main_loop requests_get article_links st)
       = count st + length (omap (extract_article_metadata requests_get) new)
    /\ (new <> List.filter in_kompas_netloc article_links ->
        MAX_ARTICLES <= count (main_loop requests_get article_links st))
    /\ (forall pre l,
          new = pre ++ [l] ->
          count st + length (omap (extract_article_metadata requests_get) pre)
          < MAX_ARTICLES).
Proof.
  revert st. induction article_links as [|link rest IH]; intros st.
  - exists []. rewrite app_nil_r. repeat split; try done; try (simpl; lia).
    intros pre l Hn. by destruct pre.
  - rewrite main_loop_cons.
    destruct (MAX_ARTICLES <=? count st)%nat eqn:Hmax.
    { apply Nat.leb_le in Hmax. exists []. rewrite app_nil_r.
      repeat split; try done; try (simpl; lia).
      - apply prefix_nil.
      - intros pre l Hn. by destruct pre. }
    apply Nat.leb_gt in Hmax. simpl List.filter.
    destruct (in_kompas_netloc link) eqn:Hk; cbn [negb]; [|apply IH].
    destruct (extract_article_metadata requests_get link) as [meta|] eqn:He;
      match goal with |- context [main_loop requests_get rest ?st'] =>
        destruct (IH st') as (new & Hp & Hpre & Hc & Hstop & Hlt) end;
      cbn [count collected_data processed] in *;
      exists (link :: new);
      rewrite ?(omap_cons_Some _ _ _ _ He), ?(omap_cons_None _ _ _ He), Hp,
        <- app_assoc; cbn [length app].
    + split; [done|]. split; [by apply prefix_cons|]. split; [rewrite Hc; lia|].
      split; [intros Hne; apply Hstop; congruence|].
      intros [|x pre] l Hn; [simpl; lia|]. injection Hn as <- ->.
      rewrite (omap_cons_Some _ _ _ _ He). cbn [length].
      specialize (Hlt pre l eq_refl). lia.
    + split; [done|]. split; [by apply prefix_cons|]. split; [by rewrite Hc|].
      split; [intros Hne; apply Hstop; congruence|].
      intros [|x pre] l Hn; [simpl; lia|]. injection Hn as <- ->.
      rewrite (omap_cons_None _ _ _ He). by apply (Hlt pre l).
Qed.

Lemma prefix_sublist {A} (l1 l2 : list A) :
  l1 `prefix_of` l2 -> l1 `sublist_of` l2.
Proof. intros [k ->]. by apply sublist_inserts_r. Qed.

Lemma list_filter_sublist {A} (f : A -> bool) (l : list A) :
  List.filter f l `sublist_of` l.
Proof.
  induction l as [|x l IH]; simpl; [done|].
  destruct (f x); [by apply sublist_skip | by apply sublist_cons].
Qed.

Lemma collect_home_NoDup : NoDup (collect_article_links_from_home requests_get).
Proof.
  unfold collect_article_links_from_home.
  destruct (get_soup requests_get BASE_URL); [apply collect_NoDup | apply NoDup_nil_2].
Qed.

(** The links of the records taken from a list of processed links. *)
Lemma links_of_extracted (new : list string) :
  link <$> omap (extract_article_metadata requests_get) new
  = filter (fun l => is_Some (extract_article_metadata requests_get l)) new.
Proof.
  induction new as [|l new IH]; [done|].
  destruct (extract_article_metadata requests_get l) as [r|] eqn:He.
  - rewrite (omap_cons_Some _ _ _ _ He), fmap_cons, IH, filter_cons_True
      by (by rewrite He).
    f_equal. unfold extract_article_metadata in He.
    destruct (get_soup requests_get l); by simplify_eq.
  - rewrite (omap_cons_None _ _ _ He), IH, filter_cons_False; [done|].
    rewrite He. by intros [? ?].
Qed.

(** The whole run of [main], from the empty state. *)
Lemma main_run :
  let F := List.filter in_kompas_netloc
             (collect_article_links_from_home requests_get) in
  let new := processed (main requests_get) in
  new `prefix_of` F
  /\ collected_data (main requests_get)
     = omap (extract_article_metadata requests_get) new
  /\ length (collected_data (main requests_get)) <= MAX_ARTICLES
  /\ (new <> F -> MAX_ARTICLES <= length (collected_data (main requests_get)))
  /\ (forall pre l,
        new = pre ++ [l] ->
        length (omap (extract_article_metadata requests_get) pre) < MAX_ARTICLES).
Proof.
  cbv zeta. unfold main.
  set (links := collect_article_links_from_home requests_get).
  set (st0 := {| count := 0; collected_data := []; processed := [] |}).
  destruct (main_loop_run links st0) as (new & Hp & Hpre & Hc & Hstop & Hlt).
  destruct (main_loop_processed requests_get links st0) as (new' & Hp' & Hcd & _).
  assert (new' = new) as -> by (rewrite Hp in Hp'; by simplify_list_eq).
  pose proof (main_loop_count requests_get links st0 eq_refl) as Hn.
  pose proof (main_loop_collected requests_get links st0) as Hcol.
  subst st0. cbn [processed collected_data count app] in *.
  rewrite Hp. split; [done|]. split; [done|]. split.
  - rewrite Hcol, length_take. lia.
  - split; [intros Hne; rewrite <- Hn; by apply Hstop|].
    intros pre l Hnew. specialize (Hlt pre l Hnew). lia.
Qed.

(** X2.  The driver goes through the in-domain candidates in the order of
    the collector, without skipping one, until it stops: the links it
    fetches are an initial segment of them, and none is fetched twice. *)
Theorem processed_initial_segment_no_repeat :
  processed (main requests_get)
    `prefix_of` List.filter in_kompas_netloc
                  (collect_article_links_from_home requests_get)
  /\ NoDup (processed (main requests_get)).
Proof.
  destruct main_run as (Hpre & _). split; [done|].
  eapply sublist_NoDup; [apply collect_home_NoDup|].
  etrans; [by apply prefix_sublist | apply list_filter_sublist].
Qed.

(** X3.  The records carry the links of the fetched pages whose extraction
    succeeded, in the order of the collector: no two records have the same
    link, and every record's link is one the collector returned. *)
Theorem record_links_distinct_in_collector_order :
  link <$> collected_data (main requests_get)
  = filter (fun l => is_Some (extract_article_metadata requests_get l))
           (processed (main requests_get))
  /\ (link <$> collected_data (main requests_get))
       `sublist_of` collect_article_links_from_home requests_get
  /\ NoDup (link <$> collected_data (main requests_get)).
Proof.
  destruct main_run as (Hpre & Hcd & _).
  assert ((link <$> collected_data (main requests_get))
            `sublist_of` collect_article_links_from_home requests_get) as Hsub.
  { rewrite Hcd, links_of_extracted.
    etrans; [apply sublist_filter|].
    etrans; [by apply prefix_sublist | apply list_filter_sublist]. }
  split; [by rewrite Hcd, links_of_extracted|]. split; [done|].
  eapply sublist_NoDup; [apply collect_home_NoDup | exact Hsub].
Qed.

(** X4.  Nothing is fetched after the record that reaches the maximum: when
    [MAX_ARTICLES] records were collected, the last page the driver fetched
    is the one that gave the last record. *)
Theorem no_fetch_after_last_record :
  length (collected_data (main requests_get)) = MAX_ARTICLES ->
  exists pre l r,
    processed (main requests_get) = pre ++ [l]
    /\ extract_article_metadata requests_get l = Some r
    /\ collected_data (main requests_get)
       = omap (extract_article_metadata requests_get) pre ++ [r].
Proof.
  intros Hlen. destruct main_run as (_ & Hcd & _ & _ & Hlt).
  destruct (processed (main requests_get)) as [|x new'] eqn:Hp using rev_ind.
  { rewrite Hcd in Hlen. by vm_compute in Hlen. }
  clear IHnew'. specialize (Hlt new' x eq_refl).
  rewrite Hcd, omap_app in Hlen |- *. rewrite length_app in Hlen.
  destruct (extract_article_metadata requests_get x) as [r|] eqn:He.
  - exists new', x, r. by rewrite (omap_cons_Some _ _ _ _ He).
  - rewrite (omap_cons_None _ _ _ He) in Hlen. simpl in Hlen. lia.
Qed.

(** X5.  When the extraction of every in-domain candidate succeeds, the
    driver fetches exactly the first [MAX_ARTICLES] of them (all of them
    when they are fewer), so at most [MAX_ARTICLES] pages. *)
Theorem processed_when_every_fetch_succeeds :
  (forall l,
      l ∈ List.filter in_kompas_netloc
            (collect_article_links_from_home requests_get) ->
      is_Some (extract_article_metadata requests_get l)) ->
  processed (main requests_get)
  = take MAX_ARTICLES
      (List.filter in_kompas_netloc
         (collect_article_links_from_home requests_get))
  /\ length (processed (main requests_get)) <= MAX_ARTICLES.
Proof.
  intros Hall. destruct main_run as ([k HF] & Hcd & Hle & Hstop & _).
  set (F := List.filter in_kompas_netloc _) in *.
  set (new := processed (main requests_get)) in *.
  assert (forall pre, pre `sublist_of` new ->
            length (omap (extract_article_metadata requests_get) pre) = length pre)
    as Hok.
  { induction pre as [|x pre IH]; intros Hsub; [done|].
    destruct (Hall x) as [r Hr].
    - rewrite HF. apply elem_of_app. left.
      eapply elem_of_sublist; [apply list_elem_of_here | exact Hsub].
    - rewrite (omap_cons_Some _ _ _ _ Hr). cbn [length]. f_equal. apply IH.
      etrans; [apply sublist_cons, reflexivity | exact Hsub]. }
  assert (length new <= MAX_ARTICLES) as Hnew.
  { rewrite <- (Hok new) by done. by rewrite <- Hcd. }
  split; [|done]. destruct k as [|y k].
  - rewrite app_nil_r in HF. rewrite HF. by rewrite take_ge.
  - assert (length new = MAX_ARTICLES) as <-.
    { apply Nat.le_antisymm; [done|]. rewrite <- (Hok new), <- Hcd by done.
      apply Hstop. rewrite HF. intros Heq.
      apply (f_equal length) in Heq. rewrite length_app in Heq. simpl in Heq. lia. }
    by rewrite HF, take_app_length.
Qed.

End DriverRun.

(** ** The link collector, continued *)

Lemma truthy_true_false (s : string) : truthy s = false -> s = "".
Proof. by destruct s. Qed.

Lemma contains_hash_cons (c : ascii) (s : string) :
  contains "#" (String c s) = Ascii.eqb c "#" || contains "#" s.
Proof.
  change (contains "#" (String c s))
    with (match ascii_dec "#" c with
          | left _ => String.prefix "" s
          | right _ => false
          end || contains "#" s).
  f_equal. destruct (ascii_dec "#" c) as [<-|Hne].
  - by destruct s.
  - symmetry. apply Ascii.eqb_neq. congruence.
Qed.

Lemma split_hash_0_no_hash (s : string) : contains "#" (split_hash_0 s) = false.
Proof.
  induction s as [|c s IH]; [done|]. simpl.
  destruct (Ascii.eqb c "#") eqn:Hc; [done|].
  by rewrite contains_hash_cons, Hc, IH.
Qed.

Lemma split_hash_0_id (s : string) :
  contains "#" s = false -> split_hash_0 s = s.
Proof.
  induction s as [|c s IH]; [done|]. rewrite contains_hash_cons. simpl.
  destruct (Ascii.eqb c "#"); [done|]. simpl. intros Hs. by rewrite IH.
Qed.

(** [dict.fromkeys] by its insertion loop, against the head-first reading. *)
Lemma dict_fromkeys_loop (l d : list string) :
  foldl (fun d k => if bool_decide (k ∈ d) then d else d ++ [k]) d l
  = d ++ filter (fun k => k ∉ d) (keep_first l).
Proof.
  revert d. induction l as [|x l IH]; intros d; simpl.
  - by rewrite filter_nil, app_nil_r.
  - rewrite IH. case_bool_decide as Hx.
    + rewrite filter_cons_False by (by intros Hn; apply Hn). f_equal.
      rewrite list_filter_filter. apply list_filter_iff.
      intros y. simpl. split; [|by intros [? ?]].
      intros Hy. split; [done|]. by intros ->.
    + rewrite filter_cons_True by done. rewrite <- app_assoc. simpl. do 2 f_equal.
      rewrite list_filter_filter. apply list_filter_iff.
      intros y. simpl. rewrite elem_of_app, list_elem_of_singleton. tauto.
Qed.

Lemma dict_fromkeys_keep_first (l : list string) : dict_fromkeys l = keep_first l.
Proof.
  unfold dict_fromkeys. rewrite dict_fromkeys_loop, app_nil_l.
  induction (keep_first l) as [|y k IH]; [done|].
  rewrite filter_cons_True by apply not_elem_of_nil. by rewrite IH.
Qed.

Lemma find_all_matches (t : node) (name : option string) (fs : list attr_filter)
    (n : node) :
  n ∈ find_all t name fs -> matches name fs n = true.
Proof. unfold find_all. by intros [? _]%list_elem_of_filter. Qed.

Lemma find_elem_of (t : node) (name : option string) (fs : list attr_filter)
    (n : node) :
  find t name fs = Some n -> n ∈ find_all t name fs.
Proof.
  unfold find. destruct (find_all t name fs); simpl; [done|].
  intros [= ->]. apply list_elem_of_here.
Qed.

(** What [href=True] guarantees: the attribute is there. *)
Lemma matches_href (name : option string) (n : node) :
  matches name [AttrTrue "href"] n = true -> exists href, get n "href" = Some href.
Proof.
  destruct n as [|nm a cs]; simpl; [done|].
  intros [_ H]%andb_true_iff. rewrite andb_true_r in H.
  destruct (assoc "href" a) as [h|]; [by exists h | done].
Qed.

Section CollectorRules.

Context `{U : UrlLib} `{O : SetOrder}.
Variable requests_get : string -> response.

(** The second loop for one anchor, in terms of the resolved link. *)
Lemma anchor_href_resolved (a : node) :
  anchor_href a
  = let href := default "" (get a "href") in
    if truthy href then
      let h := resolved_href href in
      if in_kompas_netloc h then
        if has_marker (path (urlparse h))
           || (30 <? String.length (get_text a))%nat
        then Some h else None
      else None
    else None.
Proof.
  unfold anchor_href, resolved_href, in_kompas_netloc, has_marker. cbv zeta.
  destruct (truthy (default "" (get a "href"))); cbn [negb]; [|done].
  destruct (truthy (netloc (urlparse (default "" (get a "href")))));
    cbn [negb];
    (destruct (contains "kompas.com" _); [|done]);
    by destruct (_ || _ || _ || _ || _ || _ || _).
Qed.

(** The rule of the second loop for one anchor. *)
Lemma anchor_href_spec (a : node) (href h : string) :
  get a "href" = Some href ->
  anchor_href a = Some h
  <-> href <> ""
      /\ h = resolved_href href
      /\ in_kompas_netloc h = true
      /\ (has_marker (path (urlparse h)) = true
          \/ 30 < String.length (get_text a)).
Proof.
  intros Hget. rewrite anchor_href_resolved, Hget.
  change (default "" (Some href)) with href. cbv zeta.
  destruct (truthy href) eqn:Ht.
  2:{ apply truthy_true_false in Ht. split; [done | by intros [? _]]. }
  apply truthy_true in Ht.
  destruct (in_kompas_netloc (resolved_href href)) eqn:Hk.
  2:{ split; [done | intros (_ & -> & ? & _); congruence]. }
  destruct (has_marker (path (urlparse (resolved_href href)))) eqn:Hm; cbn [orb].
  { split; [intros [= <-]; auto | by intros (_ & -> & _)]. }
  destruct (30 <? String.length (get_text a))%nat eqn:Hlt.
  - apply Nat.ltb_lt in Hlt.
    split; [intros [= <-]; auto | by intros (_ & -> & _)].
  - apply Nat.ltb_ge in Hlt. split; [done|].
    intros (_ & -> & _ & [Hm'|Hl]); [congruence | lia].
Qed.

(** X6.  No URL the collector returns contains ['#']: stripping the fragment
    again changes none of them. *)
Theorem collected_links_have_no_fragment :
  Forall (fun x => contains "#" x = false /\ split_hash_0 x = x)
         (collect_article_links_from_home requests_get).
Proof.
  apply Forall_forall. intros x. unfold collect_article_links_from_home.
  destruct (get_soup requests_get BASE_URL) as [soup|]; [|by intros ?%elem_of_nil].
  intros (h & _ & ->)%elem_of_collect.
  split; [apply split_hash_0_no_hash | apply split_hash_0_id, split_hash_0_no_hash].
Qed.

(** X7.  The sequence the collector returns is obtained by iterating over
    the set of all links the two loops add, stripping the fragment of each,
    and keeping the first occurrence of every result, the kept ones in
    unchanged order. *)
Theorem collect_is_keep_first_of_set_iteration (soup : node) :
  collect_links_from_soup soup
  = keep_first (split_hash_0 <$> set_iter (list_to_set (added_hrefs soup))).
Proof.
  unfold collect_links_from_soup, added_hrefs.
  rewrite !foldl_add_link, dict_fromkeys_keep_first, list_to_set_app_L.
  by rewrite (left_id_L ∅ (∪)).
Qed.

(** X8.  A URL is returned by the collector exactly when it is the
    fragment-stripped form of the resolved first link of an article
    container, or of a link of the page with a non-empty [href], resolved
    against the homepage when it names no host, whose host contains
    "kompas.com" and whose path has a section marker or whose text is longer
    than 30 characters. *)
Theorem collected_iff_structural_or_heuristic (soup : node) (x : string) :
  x ∈ collect_links_from_soup soup
  <-> (exists art a href,
          art ∈ find_all soup (Some "article") []
          /\ find art (Some "a") [AttrTrue "href"] = Some a
          /\ get a "href" = Some href
          /\ x = split_hash_0 (urljoin BASE_URL href))
      \/ (exists a href,
            a ∈ find_all soup (Some "a") [AttrTrue "href"]
            /\ get a "href" = Some href
            /\ href <> ""
            /\ in_kompas_netloc (resolved_href href) = true
            /\ (has_marker (path (urlparse (resolved_href href))) = true
                \/ 30 < String.length (get_text a))
            /\ x = split_hash_0 (resolved_href href)).
Proof.
  rewrite elem_of_collect. unfold added_hrefs. split.
  - intros (h & Hh & ->).
    apply elem_of_app in Hh as [(art & Hart & Hah)%list_elem_of_omap
                               |(a & Ha & Hah)%list_elem_of_omap].
    + left. unfold article_href in Hah.
      destruct (find art (Some "a") [AttrTrue "href"]) as [a|] eqn:Hf; [|done].
      destruct (matches_href _ _ (find_all_matches _ _ _ _ (find_elem_of _ _ _ _ Hf)))
        as [href Hg].
      rewrite Hg in Hah. injection Hah as <-. by exists art, a, href.
    + right. destruct (matches_href _ _ (find_all_matches _ _ _ _ Ha)) as [href Hg].
      destruct (proj1 (anchor_href_spec a href h Hg) Hah) as (Hne & Hh & Hk & Hm).
      subst h. by exists a, href.
  - intros [(art & a & href & Hart & Hf & Hg & ->)
           |(a & href & Ha & Hg & Hne & Hk & Hm & ->)].
    + eexists. split; [|done]. apply elem_of_app. left.
      apply list_elem_of_omap. exists art. split; [done|].
      unfold article_href. by rewrite Hf, Hg.
    + eexists. split; [|done]. apply elem_of_app. right.
      apply list_elem_of_omap. exists a. split; [done|].
      by apply (anchor_href_spec a href _ Hg).
Qed.

End CollectorRules.

(** ** Facts about the transcription of urllib.parse *)

Lemma urlsplit_netloc (url d : string) :
  netloc (Urllib.urlsplit url d)
  = netloc_of (after_scheme (Urllib.remove_unsafe (Urllib.lstrip_c0 url))).
Proof.
  unfold Urllib.urlsplit, netloc_of, after_scheme, is_scheme. cbv zeta.
  set (u := Urllib.remove_unsafe (Urllib.lstrip_c0 url)).
  destruct (Urllib.partition ":" u) as [[pre post]|];
    repeat match goal with
           | |- context [if ?b then _ else _] => destruct b eqn:?
           | |- context [Urllib.splitnetloc ?x] => destruct (Urllib.splitnetloc x)
           | |- context [Urllib.partition ?c ?x] => destruct (Urllib.partition c x) as [[? ?]|]
           end; reflexivity.
Qed.

Lemma urlsplit_scheme (url d : string) :
  scheme (Urllib.urlsplit url d)
  = match Urllib.partition ":" (Urllib.remove_unsafe (Urllib.lstrip_c0 url)) with
    | Some (pre, post) =>
        if is_scheme pre then Urllib.lower pre
        else Urllib.remove_unsafe (Urllib.rstrip_c0 (Urllib.lstrip_c0 d))
    | None => Urllib.remove_unsafe (Urllib.rstrip_c0 (Urllib.lstrip_c0 d))
    end.
Proof.
  unfold Urllib.urlsplit, is_scheme. cbv zeta.
  set (u := Urllib.remove_unsafe (Urllib.lstrip_c0 url)).
  destruct (Urllib.partition ":" u) as [[pre post]|];
    repeat match goal with
           | |- context [if ?b then _ else _] => destruct b eqn:?
           | |- context [Urllib.splitnetloc ?x] => destruct (Urllib.splitnetloc x)
           | |- context [Urllib.partition ?c ?x] => destruct (Urllib.partition c x) as [[? ?]|]
           end; reflexivity.
Qed.

Lemma urlparse_netloc (url d : string) :
  netloc (Urllib.urlparse url d) = netloc (Urllib.urlsplit url d).
Proof.
  unfold Urllib.urlparse. destruct (_ && _); [|done].
  by destruct (Urllib.splitparams _).
Qed.

Lemma urlparse_scheme (url d : string) :
  scheme (Urllib.urlparse url d) = scheme (Urllib.urlsplit url d).
Proof.
  unfold Urllib.urlparse. destruct (_ && _); [|done].
  by destruct (Urllib.splitparams _).
Qed.

(** *** Stripping the fragment does not change the host *)

Lemma hash_code (c : ascii) : Ascii.eqb c "#" = true -> nat_of_ascii c = 35.
Proof. by intros ->%Ascii.eqb_eq. Qed.

Lemma lstrip_c0_hash (s : string) :
  Urllib.lstrip_c0 (split_hash_0 s) = split_hash_0 (Urllib.lstrip_c0 s).
Proof.
  induction s as [|c s IH]; [done|].
  destruct (Ascii.eqb c "#") eqn:Hc.
  - apply Ascii.eqb_eq in Hc as ->. reflexivity.
  - simpl. rewrite Hc. simpl.
    destruct (nat_of_ascii c <=? 32)%nat; [done|]. simpl. by rewrite Hc.
Qed.

Lemma remove_unsafe_hash (s : string) :
  Urllib.remove_unsafe (split_hash_0 s) = split_hash_0 (Urllib.remove_unsafe s).
Proof.
  induction s as [|c s IH]; [done|].
  destruct (Ascii.eqb c "#") eqn:Hc.
  - apply Ascii.eqb_eq in Hc as ->. reflexivity.
  - simpl. rewrite Hc. simpl.
    destruct (_ || _ || _)%nat; [done|]. simpl. by rewrite Hc, IH.
Qed.

Lemma partition_cons (c x : ascii) (r : string) :
  Urllib.partition c (String x r)
  = if Ascii.eqb x c then Some ("", r)
    else match Urllib.partition c r with
         | Some (a, b) => Some (String x a, b)
         | None => None
         end.
Proof. reflexivity. Qed.

Lemma split_hash_0_cons (c : ascii) (r : string) :
  split_hash_0 (String c r)
  = if Ascii.eqb c "#" then "" else String c (split_hash_0 r).
Proof. reflexivity. Qed.

Lemma partition_hash (s : string) :
  Urllib.partition ":" (split_hash_0 s)
  = match Urllib.partition ":" s with
    | Some (pre, post) =>
        if contains "#" pre then None else Some (pre, split_hash_0 post)
    | None => None
    end.
Proof.
  induction s as [|c s IH]; [done|].
  rewrite split_hash_0_cons, (partition_cons ":" c s).
  destruct (Ascii.eqb c "#") eqn:Hc.
  - apply Ascii.eqb_eq in Hc as ->.
    change (Ascii.eqb "#" ":") with false. cbv iota.
    destruct (Urllib.partition ":" s) as [[pre post]|]; [|done].
    by rewrite contains_hash_cons.
  - rewrite partition_cons. destruct (Ascii.eqb c ":"); [done|]. rewrite IH.
    destruct (Urllib.partition ":" s) as [[pre post]|]; [|done].
    rewrite contains_hash_cons, Hc. cbn [orb]. by destruct (contains "#" pre).
Qed.

Lemma scheme_chars_no_hash (pre : string) :
  Urllib.forall_chars Urllib.is_scheme_char pre = true -> contains "#" pre = false.
Proof.
  induction pre as [|c pre IH]; [done|]. intros H.
  change (Urllib.is_scheme_char c
          && Urllib.forall_chars Urllib.is_scheme_char pre = true) in H.
  apply andb_true_iff in H as [Hc Hpre]. rewrite contains_hash_cons, IH by done.
  destruct (Ascii.eqb c "#") eqn:Hh; [|done].
  apply Ascii.eqb_eq in Hh as ->. by vm_compute in Hc.
Qed.

Lemma after_scheme_hash (u : string) :
  after_scheme (split_hash_0 u) = split_hash_0 (after_scheme u).
Proof.
  unfold after_scheme. rewrite partition_hash.
  destruct (Urllib.partition ":" u) as [[pre post]|]; [|done].
  destruct (contains "#" pre) eqn:Hh.
  - destruct (is_scheme pre) eqn:Hs; [|done].
    unfold is_scheme in Hs. apply andb_true_iff in Hs as [_ Hs].
    apply scheme_chars_no_hash in Hs. congruence.
  - by destruct (is_scheme pre).
Qed.

Lemma splitnetloc_hash (s : string) :
  fst (Urllib.splitnetloc (split_hash_0 s)) = fst (Urllib.splitnetloc s).
Proof.
  induction s as [|c s IH]; [done|]. simpl.
  destruct (Ascii.eqb c "#") eqn:Hc.
  - by rewrite !orb_true_r.
  - simpl. rewrite Hc, orb_false_r.
    destruct (Ascii.eqb c "/" || Ascii.eqb c "?"); [done|].
    destruct (Urllib.splitnetloc (split_hash_0 s)), (Urllib.splitnetloc s).
    simpl in *. by rewrite IH.
Qed.

Lemma prefix_slashes (r : string) :
  String.prefix "//" r
  = match r with
    | String c1 (String c2 _) => Ascii.eqb c1 "/" && Ascii.eqb c2 "/"
    | _ => false
    end.
Proof.
  destruct r as [|c1 r]; [done|].
  change (String.prefix "//" (String c1 r))
    with (match ascii_dec "/" c1 with
          | left _ => String.prefix "/" r
          | right _ => false
          end).
  destruct (ascii_dec "/" c1) as [<-|Hne].
  - destruct r as [|c2 r]; [done|].
    change (String.prefix "/" (String c2 r))
      with (match ascii_dec "/" c2 with
            | left _ => String.prefix "" r
            | right _ => false
            end).
    destruct (ascii_dec "/" c2) as [<-|Hne2]; [by destruct r|].
    symmetry. apply Ascii.eqb_neq. congruence.
  - assert (Ascii.eqb c1 "/" = false) as -> by (apply Ascii.eqb_neq; congruence).
    by destruct r.
Qed.

Lemma netloc_of_hash (r : string) :
  netloc_of (split_hash_0 r) = netloc_of r.
Proof.
  unfold netloc_of. rewrite !prefix_slashes.
  destruct r as [|c1 r]; [done|]. simpl.
  destruct (Ascii.eqb c1 "#") eqn:H1.
  { apply Ascii.eqb_eq in H1 as ->. by destruct r. }
  destruct r as [|c2 r]; [done|]. simpl.
  destruct (Ascii.eqb c2 "#") eqn:H2.
  { apply Ascii.eqb_eq in H2 as ->. simpl. by rewrite andb_false_r. }
  destruct (Ascii.eqb c1 "/" && Ascii.eqb c2 "/"); [|done].
  apply splitnetloc_hash.
Qed.

(** The host [urlparse] reads is the same with and without the fragment. *)
Lemma urlparse_netloc_hash (url d : string) :
  netloc (Urllib.urlparse (split_hash_0 url) d) = netloc (Urllib.urlparse url d).
Proof.
  by rewrite !urlparse_netloc, !urlsplit_netloc, lstrip_c0_hash,
    remove_unsafe_hash, after_scheme_hash, netloc_of_hash.
Qed.

Lemma parsed_base_url :
  Urllib.urlparse BASE_URL ""
  = {| scheme := "https"; netloc := "www.kompas.com"; path := "/";
       params := ""; query := ""; fragment := "" |}.
Proof. vm_compute. reflexivity. Qed.

(** A reference with a scheme of its own that differs from the base's is
    returned by [urljoin] as it is. *)
Lemma urljoin_other_scheme (href : string) :
  scheme (Urllib.urlparse href "") <> "" ->
  scheme (Urllib.urlparse href "") <> "https" ->
  Urllib.urljoin BASE_URL href = href.
Proof.
  intros Hs Hh. unfold Urllib.urljoin. cbv zeta. rewrite parsed_base_url.
  change (negb (truthy BASE_URL)) with false. cbv iota.
  destruct (negb (truthy href)) eqn:Ht.
  { destruct href; [|done]. by vm_compute in Hs. }
  cbn [scheme].
  assert (scheme (Urllib.urlparse href "https") = scheme (Urllib.urlparse href ""))
    as Heq.
  { rewrite !urlparse_scheme, !urlsplit_scheme in *.
    destruct (Urllib.partition ":" _) as [[pre post]|]; [|done].
    by destruct (is_scheme pre). }
  rewrite Heq.
  destruct (String.eqb_spec (scheme (Urllib.urlparse href "")) "https"); [done|].
  done.
Qed.

(** ** The collector under CPython's urllib *)

Section CollectorPython.

Context `{O : SetOrder}.
Variable requests_get : string -> response.

(** X9.  The host test of the driver can only reject links that came from
    article containers: a link accepted by the second loop of the collector
    still passes the test after its fragment is stripped, so every returned
    URL that fails the test is the first link of an article container. *)
Theorem driver_filter_rejects_only_article_links :
  (forall a h,
      anchor_href a = Some h -> in_kompas_netloc (split_hash_0 h) = true)
  /\ (forall x,
        x ∈ collect_article_links_from_home requests_get ->
        in_kompas_netloc x = false ->
        exists soup art h,
          get_soup requests_get BASE_URL = Some soup
          /\ art ∈ find_all soup (Some "article") []
          /\ article_href art = Some h
          /\ x = split_hash_0 h).
Proof.
  assert (forall a h,
            anchor_href a = Some h -> in_kompas_netloc (split_hash_0 h) = true)
    as Hkeep.
  { intros a h Hah. apply anchor_href_in_kompas in Hah.
    unfold in_kompas_netloc in *. cbn [urlparse py_urllib] in *.
    by rewrite urlparse_netloc_hash. }
  split; [exact Hkeep|].
  intros x. unfold collect_article_links_from_home.
  destruct (get_soup requests_get BASE_URL) as [soup|] eqn:Hs;
    [|by intros ?%elem_of_nil].
  intros (h & Hh & ->)%elem_of_collect Hx. unfold added_hrefs in Hh.
  apply elem_of_app in Hh as [(art & Hart & Hah)%list_elem_of_omap
                             |(a & Ha & Hah)%list_elem_of_omap].
  - by exists soup, art, h.
  - apply Hkeep in Hah. congruence.
Qed.

(** X10.  An empty [href] is skipped by the second loop, but inside an
    article container it is resolved to the homepage itself, which the
    collector then returns as a candidate. *)
Theorem empty_href_in_article_adds_homepage (soup art a : node) :
  art ∈ find_all soup (Some "article") [] ->
  find art (Some "a") [AttrTrue "href"] = Some a ->
  get a "href" = Some "" ->
  BASE_URL ∈ collect_links_from_soup soup /\ anchor_href a = None.
Proof.
  intros Hart Hf Hg. split.
  - apply elem_of_collect. exists BASE_URL. split; [|done].
    unfold added_hrefs. apply elem_of_app. left.
    apply list_elem_of_omap. exists art. split; [done|].
    unfold article_href. by rewrite Hf, Hg.
  - unfold anchor_href. by rewrite Hg.
Qed.

(** X11.  A link with a scheme other than https and without a host, such as
    a mailto: or javascript: link, is never added by the second loop,
    whatever its address and however long its text. *)
Theorem other_scheme_without_host_not_collected (a : node) (href : string) :
  get a "href" = Some href ->
  netloc (urlparse href) = "" ->
  scheme (urlparse href) <> "" ->
  scheme (urlparse href) <> "https" ->
  anchor_href a = None.
Proof.
  intros Hg Hn Hs Hh. rewrite anchor_href_resolved, Hg.
  change (default "" (Some href)) with href. cbv zeta.
  destruct (truthy href); [|done].
  assert (resolved_href href = href) as ->.
  { unfold resolved_href. rewrite Hn. cbn [truthy].
    by apply urljoin_other_scheme. }
  unfold in_kompas_netloc. by rewrite Hn.
Qed.

End CollectorPython.

(** ** The export stage *)

Section ExportFacts.

Context `{U : UrlLib} `{O : SetOrder}.
Variable requests_get : string -> response.


End ExportFacts.

(** ** A bound on the collector *)

Section CollectorBound.

Context `{U : UrlLib} `{O : SetOrder}.

Lemma length_omap_le {A B} (f : A -> option B) (l : list A) :
  length (omap f l) <= length l.
Proof.
  induction l as [|x l IH]; [done|].
  destruct (f x) as [y|] eqn:Hx.
  - rewrite (omap_cons_Some _ _ _ _ Hx). cbn [length]. lia.
  - rewrite (omap_cons_None _ _ _ Hx). cbn [length]. lia.
Qed.

(** X13.  The collector returns at most one URL per article container and
    per link of the page: its result is never longer than the number of
    article containers plus the number of anchors that have an [href]. *)
Theorem collect_length_bound (soup : node) :
  length (collect_links_from_soup soup)
  <= length (find_all soup (Some "article") [])
     + length (find_all soup (Some "a") [AttrTrue "href"]).
Proof.
  transitivity (length (split_hash_0 <$> added_hrefs soup)).
  - apply submseteq_length, NoDup_submseteq; [apply collect_NoDup|].
    intros x (h & Hh & ->)%elem_of_collect. by apply list_elem_of_fmap_2.
  - rewrite length_fmap. unfold added_hrefs. rewrite length_app.
    apply Nat.add_le_mono; apply length_omap_le.
Qed.

End CollectorBound.

(** ** Instances of the further statements *)

(** X4, on a homepage with 51 links whose pages are all served. *)
Lemma no_fetch_after_last_record_witness :
  exists pre l r,
    processed (main (web (home_many 51) (serve page_two_titles))) = pre ++ [l]
    /\ extract_article_metadata (web (home_many 51) (serve page_two_titles)) l
       = Some r
    /\ collected_data (main (web (home_many 51) (serve page_two_titles)))
       = omap (extract_article_metadata
                 (web (home_many 51) (serve page_two_titles))) pre ++ [r].
Proof.
  apply (no_fetch_after_last_record (web (home_many 51) (serve page_two_titles))).
  vm_compute. reflexivity.
Defined.

(** X5, on the same network: 50 of the 51 candidates are fetched. *)
Lemma processed_when_every_fetch_succeeds_witness :
  processed (main (web (home_many 51) (serve page_two_titles)))
  = take MAX_ARTICLES
      (List.filter in_kompas_netloc
         (collect_article_links_from_home
            (web (home_many 51) (serve page_two_titles))))
  /\ length (processed (main (web (home_many 51) (serve page_two_titles))))
     <= MAX_ARTICLES.
Proof.
  apply (processed_when_every_fetch_succeeds
           (web (home_many 51) (serve page_two_titles))).
  intros l _. unfold extract_article_metadata, get_soup, web, serve.
  destruct (String.eqb l BASE_URL); eexists; reflexivity.
Defined.

(** X9, on the homepage whose article container links to example.org. *)
Lemma driver_filter_rejects_only_article_links_witness :
  exists soup art h,
    get_soup (web home_offsite_article unreachable) BASE_URL = Some soup
    /\ art ∈ find_all soup (Some "article") []
    /\ article_href art = Some h
    /\ "https://example.org/x" = split_hash_0 h.
Proof.
  apply (proj2 (driver_filter_rejects_only_article_links
                  (web home_offsite_article unreachable))).
  - vm_compute. apply list_elem_of_here.
  - vm_compute. reflexivity.
Defined.

(** X10, on the homepage whose article container has a link with an empty
    address. *)
Lemma empty_href_in_article_adds_homepage_witness :
  BASE_URL ∈ collect_links_from_soup home_empty_href_article
  /\ anchor_href (Tag "a" [("href", "")] [NavigableString "headline"]) = None.
Proof.
  apply (empty_href_in_article_adds_homepage home_empty_href_article
           (Tag "article" []
              [Tag "a" [("href", "")] [NavigableString "headline"]])).
  - vm_compute. apply list_elem_of_here.
  - vm_compute. reflexivity.
  - reflexivity.
Defined.

(** X11, on a mailto: link whose address contains "kompas.com" and whose
    text is longer than 30 characters. *)
Lemma other_scheme_without_host_not_collected_witness :
  anchor_href mailto_anchor = None
  /\ 30 < String.length (get_text mailto_anchor).
Proof.
  split.
  - apply (other_scheme_without_host_not_collected mailto_anchor
             "mailto:redaksi@kompas.com").
    + reflexivity.
    + vm_compute. reflexivity.
    + vm_compute. discriminate.
    + vm_compute. discriminate.
  - vm_compute. lia.
Defined.
